(** * FileDialogService (vs/workbench/services/dialogs/browser/fileDialogService.ts)

    A shallow embedding of the browser file dialog service and the proofs of
    its dispatch properties.

    The class is glue over collaborators that live elsewhere: the abstract
    dialog service it extends, the file service, the opener service, the
    browser's picker functions, the UUID generator.  They are gathered in the
    record [Host]; a call to one of them yields a value of its declared
    TypeScript type, read from the host.  What the service itself owns or
    touches is the record [World]: the memo cell of the [fileSystemProvider]
    accessor, the option objects the callers pass by reference, the number of
    answers already drawn from each collaborator, and the chronological
    trace of the calls made to collaborators.

    An [async] method is a computation in the monad [M]: it either returns
    a value (the promise resolves) or throws (the promise rejects).  The
    failures modelled are the ones the file itself raises (its three [throw]
    statements, and the read of [handle.name] on an absent handle in
    [pickFileAndOpen]) and the rejection of a browser picker, which is how a
    picker settles when the user dismisses it; the file catches nothing, so
    such a rejection is the rejection of the method.  The promises of the
    other collaborators are taken to resolve with a value of their declared
    type; collaborators do not write to the option objects. *)

From Stdlib Require Import String Ascii List Bool Arith Lia.
Import ListNotations.
Open Scope string_scope.
Open Scope list_scope.

Set Implicit Arguments.

(** ** Data *)

(** The constants of vs/base/common/network that the service uses; that
    module is not among the sources. *)
Module Schemas.

(** Modelled from the spec: [Schemas.file], the scheme 'file' of the
    native picker. *)
Definition file : string := "file".

(** Modelled from the spec: [Schemas.userData], the scheme
    'vscode-userdata'. *)
Definition userData : string := "vscode-userdata".

(** Modelled from the spec: [Schemas.tmp], the scheme 'tmp'. *)
Definition tmp : string := "tmp".

End Schemas.

(** [URI.from({ scheme, path })].  The checks [URI.from] makes on its
    components live in vs/base/common/uri, outside these sources; the only
    paths built here are '/<uuid>/<name>', which those checks refuse only
    for an empty identifier or one that starts with '/'. *)
Record URI : Type := URI_from { scheme : string; path : string }.

(** The browser's opaque handles: a name, and a token standing for the
    native object behind it. *)
Record FileSystemFileHandle : Type :=
  { file_name : string; file_token : nat }.

Record FileSystemDirectoryHandle : Type :=
  { directory_name : string; directory_token : nat }.

Record FileFilter : Type :=
  { filter_name : string; extensions : list string }.

(** [accept] is a [Record<string, string[]>]; the keys are kept in
    insertion order. *)
Record FilePickerAcceptType : Type :=
  { description : string; accept : list (string * list string) }.

Record OpenFilePickerOptions : Type :=
  { multiple : bool; open_types : option (list FilePickerAcceptType) }.

Record SaveFilePickerOptions : Type :=
  { save_types : option (list FilePickerAcceptType) }.

(** The fields of the option interfaces that this file reads or writes.
    An optional field is an [option]; [None] is [undefined]. *)
Record IPickAndOpenOptions : Type :=
  { pick_defaultUri : option URI;
    pick_availableFileSystems : option (list string) }.

Record ISaveDialogOptions : Type :=
  { save_defaultUri : option URI;
    save_availableFileSystems : option (list string);
    save_filters : option (list FileFilter) }.

Record IOpenDialogOptions : Type :=
  { open_defaultUri : option URI;
    open_availableFileSystems : option (list string);
    open_filters : option (list FileFilter);
    canSelectFiles : option bool }.

(** The argument shape of [getFileSystemSchema]:
    [{ availableFileSystems?, defaultUri? }]. *)
Record SchemaQuery : Type :=
  { query_defaultUri : option URI;
    query_availableFileSystems : option (list string) }.

Definition query_of_pick (o : IPickAndOpenOptions) : SchemaQuery :=
  {| query_defaultUri := pick_defaultUri o;
     query_availableFileSystems := pick_availableFileSystems o |}.

Definition query_of_save (o : ISaveDialogOptions) : SchemaQuery :=
  {| query_defaultUri := save_defaultUri o;
     query_availableFileSystems := save_availableFileSystems o |}.

Definition query_of_open (o : IOpenDialogOptions) : SchemaQuery :=
  {| query_defaultUri := open_defaultUri o;
     query_availableFileSystems := open_availableFileSystems o |}.

(** The file-system provider is owned by the file service; the service only
    holds a reference to it. *)
Definition Provider : Type := nat.

(** A reference to a caller-owned [IPickAndOpenOptions] object. *)
Definition Ref : Type := nat.

Inductive JsError : Type :=
| Error (message : string)
| TypeError (message : string)
| DOMException (name message : string).

(** How an awaited promise of the browser settles. *)
Inductive Settled (A : Type) : Type :=
| Resolved (a : A)
| Rejected (e : JsError).

Arguments Rejected {A} e.

(** What a [Promise<any>] of this file resolves to. *)
Inductive JsValue : Type :=
| undefined
| VUri (u : URI)
| VUris (us : list URI)
| VOpaque (n : nat).

(** ** Calls to collaborators, as they appear in the trace *)

Inductive Event : Type :=
| EvGetProvider (scheme : string)
| EvShowOpenFilePicker (options : OpenFilePickerOptions)
| EvShowSaveFilePicker (options : SaveFilePickerOptions)
| EvShowDirectoryPicker
| EvRegisterFileHandle (provider : Provider) (uuid : string)
    (handle : FileSystemFileHandle)
| EvRegisterDirectoryHandle (provider : Provider) (uuid : string)
    (handle : FileSystemDirectoryHandle)
| EvOpen (resource : URI) (fromUserGesture pinned : bool)
| EvPickFileFolderAndOpenSimplified (schema : string)
    (options : IPickAndOpenOptions) (preferNewWindow : bool)
| EvPickFileAndOpenSimplified (schema : string)
    (options : IPickAndOpenOptions) (preferNewWindow : bool)
| EvPickFolderAndOpenSimplified (schema : string)
    (options : IPickAndOpenOptions)
| EvPickWorkspaceAndOpenSimplified (schema : string)
    (options : IPickAndOpenOptions)
| EvPickFileToSaveSimplified (schema : string) (options : ISaveDialogOptions)
| EvShowSaveDialogSimplified (schema : string) (options : ISaveDialogOptions)
| EvShowOpenDialogSimplified (schema : string) (options : IOpenDialogOptions).

(** ** The collaborators *)

Record Host : Type :=
  { (* AbstractFileDialogService *)
    host_getFileSystemSchema : SchemaQuery -> string;
    host_getWorkspaceAvailableFileSystems : IPickAndOpenOptions -> list string;
    host_defaultFilePath : string -> URI;
    host_defaultFolderPath : string -> URI;
    host_defaultWorkspacePath : string -> URI;
    host_getPickFileToSaveDialogOptions :
      URI -> option (list string) -> ISaveDialogOptions;
    (* the simplified dialogs: the answer to the n-th dialog shown *)
    host_pickFileFolderAndOpenSimplified : nat -> JsValue;
    host_pickFileAndOpenSimplified : nat -> JsValue;
    host_pickFolderAndOpenSimplified : nat -> JsValue;
    host_pickFileToSaveSimplified : nat -> option URI;
    host_showSaveDialogSimplified : nat -> option URI;
    host_showOpenDialogSimplified : nat -> option (list URI);
    (* window: how the n-th dialog shown settles *)
    host_showOpenFilePicker : nat -> Settled (list FileSystemFileHandle);
    host_showSaveFilePicker : nat -> Settled FileSystemFileHandle;
    host_showDirectoryPicker : nat -> Settled FileSystemDirectoryHandle;
    (* fileService.getProvider: the answer to the n-th lookup *)
    host_getProvider : nat -> string -> Provider;
    (* generateUuid: the n-th value generated *)
    host_generateUuid : nat -> string;
    (* vs/nls and vs/base/common/mime *)
    host_localize : string -> string -> string;
    host_getMediaOrTextMime : string -> option string }.

(** ** The state *)

Record World : Type :=
  { memo_fileSystemProvider : option Provider;
    heap : Ref -> IPickAndOpenOptions;
    uuids : nat;
    dialogs : nat;
    lookups : nat;
    trace : list Event }.

Definition set_memo (m : option Provider) (w : World) : World :=
  {| memo_fileSystemProvider := m; heap := heap w; uuids := uuids w;
     dialogs := dialogs w; lookups := lookups w; trace := trace w |}.

Definition set_heap (hp : Ref -> IPickAndOpenOptions) (w : World) : World :=
  {| memo_fileSystemProvider := memo_fileSystemProvider w; heap := hp;
     uuids := uuids w; dialogs := dialogs w; lookups := lookups w;
     trace := trace w |}.

Definition next_uuid (w : World) : World :=
  {| memo_fileSystemProvider := memo_fileSystemProvider w; heap := heap w;
     uuids := S (uuids w); dialogs := dialogs w; lookups := lookups w;
     trace := trace w |}.

Definition next_dialog (w : World) : World :=
  {| memo_fileSystemProvider := memo_fileSystemProvider w; heap := heap w;
     uuids := uuids w; dialogs := S (dialogs w); lookups := lookups w;
     trace := trace w |}.

Definition next_lookup (w : World) : World :=
  {| memo_fileSystemProvider := memo_fileSystemProvider w; heap := heap w;
     uuids := uuids w; dialogs := dialogs w; lookups := S (lookups w);
     trace := trace w |}.

Definition log (e : Event) (w : World) : World :=
  {| memo_fileSystemProvider := memo_fileSystemProvider w; heap := heap w;
     uuids := uuids w; dialogs := dialogs w; lookups := lookups w;
     trace := trace w ++ [e] |}.

Definition update (hp : Ref -> IPickAndOpenOptions) (r : Ref)
    (o : IPickAndOpenOptions) : Ref -> IPickAndOpenOptions :=
  fun r' => if Nat.eqb r' r then o else hp r'.

(** A service that was just constructed, before any call. *)
Definition fresh (hp : Ref -> IPickAndOpenOptions) : World :=
  {| memo_fileSystemProvider := None; heap := hp; uuids := 0; dialogs := 0;
     lookups := 0; trace := [] |}.

(** ** The monad of async methods *)

Inductive Completion (A : Type) : Type :=
| Returned (a : A)
| Threw (e : JsError).

Arguments Threw {A} e.

Definition M (A : Type) : Type := Host -> World -> Completion A * World.

Definition ret {A} (a : A) : M A := fun _ w => (Returned a, w).

Definition throw {A} (e : JsError) : M A := fun _ w => (Threw e, w).

Definition bind {A B} (m : M A) (k : A -> M B) : M B :=
  fun h w =>
    match m h w with
    | (Returned a, w') => k a h w'
    | (Threw e, w') => (Threw e, w')
    end.

Declare Scope async_scope.
Delimit Scope async_scope with async.
Notation "x <- m ;; k" := (bind m (fun x => k))
  (at level 100, m at next level, right associativity) : async_scope.
Notation "m ;; k" := (bind m (fun _ => k))
  (at level 100, right associativity) : async_scope.
Open Scope async_scope.

Definition ask {A} (f : Host -> A) : M A := fun h w => (Returned (f h), w).

Definition emit (e : Event) : M unit := fun _ w => (Returned tt, log e w).

(** Answering a dialog: the user's answer is the host's, the dialog counts
    as shown. *)
Definition answer {A} (f : Host -> nat -> A) : M A :=
  fun h w => (Returned (f h (dialogs w)), next_dialog w).

(** Awaiting a browser picker: the dialog counts as shown; the method goes
    on with the value the promise resolves with, or rejects with the error
    the promise rejects with. *)
Definition settle {A} (f : Host -> nat -> Settled A) : M A :=
  fun h w =>
    match f h (dialogs w) with
    | Resolved a => (Returned a, next_dialog w)
    | Rejected e => (Threw e, next_dialog w)
    end.

(** *** Option objects passed by reference *)

Definition deref (r : Ref) : M IPickAndOpenOptions :=
  fun _ w => (Returned (heap w r), w).

Definition assign_defaultUri (r : Ref) (u : URI) : M unit :=
  fun _ w =>
    let o := heap w r in
    (Returned tt,
     set_heap (update (heap w) r
       {| pick_defaultUri := Some u;
          pick_availableFileSystems := pick_availableFileSystems o |}) w).

Definition assign_availableFileSystems (r : Ref) (l : list string) : M unit :=
  fun _ w =>
    let o := heap w r in
    (Returned tt,
     set_heap (update (heap w) r
       {| pick_defaultUri := pick_defaultUri o;
          pick_availableFileSystems := Some l |}) w).

(** ** Collaborators as actions *)

Definition this_getFileSystemSchema (q : SchemaQuery) : M string :=
  ask (fun h => host_getFileSystemSchema h q).

Definition this_getWorkspaceAvailableFileSystems (o : IPickAndOpenOptions)
    : M (list string) :=
  ask (fun h => host_getWorkspaceAvailableFileSystems h o).

Definition this_defaultFilePath (schema : string) : M URI :=
  ask (fun h => host_defaultFilePath h schema).

Definition this_defaultFolderPath (schema : string) : M URI :=
  ask (fun h => host_defaultFolderPath h schema).

Definition this_defaultWorkspacePath (schema : string) : M URI :=
  ask (fun h => host_defaultWorkspacePath h schema).

Definition this_getPickFileToSaveDialogOptions (defaultUri : URI)
    (availableFileSystems : option (list string)) : M ISaveDialogOptions :=
  ask (fun h =>
         host_getPickFileToSaveDialogOptions h defaultUri availableFileSystems).

Definition localize (key message : string) : M string :=
  ask (fun h => host_localize h key message).

Definition generateUuid : M string :=
  fun h w => (Returned (host_generateUuid h (uuids w)), next_uuid w).

Definition window_showOpenFilePicker (options : OpenFilePickerOptions)
    : M (list FileSystemFileHandle) :=
  emit (EvShowOpenFilePicker options) ;;
  settle host_showOpenFilePicker.

Definition window_showSaveFilePicker (options : SaveFilePickerOptions)
    : M FileSystemFileHandle :=
  emit (EvShowSaveFilePicker options) ;;
  settle host_showSaveFilePicker.

Definition window_showDirectoryPicker : M FileSystemDirectoryHandle :=
  emit EvShowDirectoryPicker ;;
  settle host_showDirectoryPicker.

Definition fileService_getProvider (scheme : string) : M Provider :=
  fun h w =>
    (Returned (host_getProvider h (lookups w) scheme),
     next_lookup (log (EvGetProvider scheme) w)).

Definition registerFileHandle (provider : Provider) (uuid : string)
    (handle : FileSystemFileHandle) : M unit :=
  emit (EvRegisterFileHandle provider uuid handle).

Definition registerDirectoryHandle (provider : Provider) (uuid : string)
    (handle : FileSystemDirectoryHandle) : M unit :=
  emit (EvRegisterDirectoryHandle provider uuid handle).

Definition openerService_open (resource : URI) (fromUserGesture pinned : bool)
    : M unit :=
  emit (EvOpen resource fromUserGesture pinned).

(** The simplified dialogs receive the option object; the trace records its
    contents at the time of the call. *)
Definition pickFileFolderAndOpenSimplified (schema : string) (options : Ref)
    (preferNewWindow : bool) : M JsValue :=
  o <- deref options ;;
  emit (EvPickFileFolderAndOpenSimplified schema o preferNewWindow) ;;
  answer host_pickFileFolderAndOpenSimplified.

Definition pickFileAndOpenSimplified (schema : string) (options : Ref)
    (preferNewWindow : bool) : M JsValue :=
  o <- deref options ;;
  emit (EvPickFileAndOpenSimplified schema o preferNewWindow) ;;
  answer host_pickFileAndOpenSimplified.

Definition pickFolderAndOpenSimplified (schema : string) (options : Ref)
    : M JsValue :=
  o <- deref options ;;
  emit (EvPickFolderAndOpenSimplified schema o) ;;
  answer host_pickFolderAndOpenSimplified.

Definition pickWorkspaceAndOpenSimplified (schema : string) (options : Ref)
    : M JsValue :=
  o <- deref options ;;
  emit (EvPickWorkspaceAndOpenSimplified schema o) ;;
  answer (fun _ _ => undefined).

Definition pickFileToSaveSimplified (schema : string)
    (options : ISaveDialogOptions) : M (option URI) :=
  emit (EvPickFileToSaveSimplified schema options) ;;
  answer host_pickFileToSaveSimplified.

Definition showSaveDialogSimplified (schema : string)
    (options : ISaveDialogOptions) : M (option URI) :=
  emit (EvShowSaveDialogSimplified schema options) ;;
  answer host_showSaveDialogSimplified.

Definition showOpenDialogSimplified (schema : string)
    (options : IOpenDialogOptions) : M (option (list URI)) :=
  emit (EvShowOpenDialogSimplified schema options) ;;
  answer host_showOpenDialogSimplified.

(** ** JavaScript idioms *)

(** [s.indexOf(c) < 0] for a one-character [c]. *)
Fixpoint lacks (c : ascii) (s : string) : bool :=
  match s with
  | EmptyString => true
  | String a s' => if Ascii.eqb a c then false else lacks c s'
  end.

(** Truthiness of a [string | undefined]: the empty string is falsy. *)
Definition truthy_string (s : option string) : bool :=
  match s with
  | Some EmptyString => false
  | Some (String _ _) => true
  | None => false
  end.

(** Truthiness of a [boolean | undefined]. *)
Definition truthy_bool (b : option bool) : bool :=
  match b with
  | Some true => true
  | _ => false
  end.

(** Interpolation [${xs[0]}] of the first element of an array of strings:
    an absent element prints as "undefined". *)
Definition first_interpolated (xs : list string) : string :=
  match xs with
  | [] => "undefined"
  | x :: _ => x
  end.

(** [x === s] for [x : string | undefined] and a string [s]. *)
Definition strict_equal (x : option string) (s : string) : bool :=
  match x with
  | Some x' => String.eqb x' s
  | None => false
  end.

(** ** The service *)

(** Modelled from the spec: the [memoize] decorator of
    vs/base/common/decorators is not among the sources; the spec calls the
    accessor "memoized".  The first read runs the getter and stores what it
    returned on the instance, every later read returns the stored value. *)
Definition memoize (getter : M Provider) : M Provider :=
  fun h w =>
    match memo_fileSystemProvider w with
    | Some p => (Returned p, w)
    | None =>
        match getter h w with
        | (Returned p, w') => (Returned p, set_memo (Some p) w')
        | (Threw e, w') => (Threw e, w')
        end
    end.

Definition fileSystemProvider : M Provider :=
  memoize (fileService_getProvider Schemas.file).

Definition shouldUseSimplified (scheme : string) : bool :=
  negb (existsb (String.eqb scheme)
          [Schemas.file; Schemas.userData; Schemas.tmp]).

Definition pickFileFolderAndOpen (options : Ref) : M JsValue :=
  o <- deref options ;;
  schema <- this_getFileSystemSchema (query_of_pick o) ;;
  o <- deref options ;;
  match pick_defaultUri o with
  | None => d <- this_defaultFilePath schema ;; assign_defaultUri options d
  | Some _ => ret tt
  end ;;
  if shouldUseSimplified schema then
    pickFileFolderAndOpenSimplified schema options false
  else
    msg <- localize "pickFolderAndOpen"
             "Can't open folders, try adding a folder to the workspace instead." ;;
    throw (Error msg).

Definition pickFileAndOpen (options : Ref) : M JsValue :=
  o <- deref options ;;
  schema <- this_getFileSystemSchema (query_of_pick o) ;;
  o <- deref options ;;
  match pick_defaultUri o with
  | None => d <- this_defaultFilePath schema ;; assign_defaultUri options d
  | Some _ => ret tt
  end ;;
  if shouldUseSimplified schema then
    pickFileAndOpenSimplified schema options false
  else
    handles <- window_showOpenFilePicker
                 {| multiple := false; open_types := None |} ;;
    uuid <- generateUuid ;;
    match handles with
    | [] =>
        (* [handle] is undefined: reading [handle.name] throws *)
        throw (TypeError "Cannot read properties of undefined (reading 'name')")
    | handle :: _ =>
        let uri := URI_from Schemas.file
                     ("/" ++ uuid ++ "/" ++ file_name handle) in
        provider <- fileSystemProvider ;;
        registerFileHandle provider uuid handle ;;
        openerService_open uri true true ;;
        ret undefined
    end.

Definition pickFolderAndOpen (options : Ref) : M JsValue :=
  o <- deref options ;;
  schema <- this_getFileSystemSchema (query_of_pick o) ;;
  o <- deref options ;;
  match pick_defaultUri o with
  | None => d <- this_defaultFolderPath schema ;; assign_defaultUri options d
  | Some _ => ret tt
  end ;;
  if shouldUseSimplified schema then
    pickFolderAndOpenSimplified schema options
  else
    msg <- localize "pickFolderAndOpen"
             "Can't open folders, try adding a folder to the workspace instead." ;;
    throw (Error msg).

Definition pickWorkspaceAndOpen (options : Ref) : M JsValue :=
  o <- deref options ;;
  available <- this_getWorkspaceAvailableFileSystems o ;;
  assign_availableFileSystems options available ;;
  o <- deref options ;;
  schema <- this_getFileSystemSchema (query_of_pick o) ;;
  o <- deref options ;;
  match pick_defaultUri o with
  | None => d <- this_defaultWorkspacePath schema ;; assign_defaultUri options d
  | Some _ => ret tt
  end ;;
  if shouldUseSimplified schema then
    pickWorkspaceAndOpenSimplified schema options
  else
    msg <- localize "pickWorkspaceAndOpen"
             "Can't open workspaces, try adding a folder to the workspace instead." ;;
    throw (Error msg).

Definition getFilePickerTypes (h : Host) (filters : option (list FileFilter))
    : option (list FilePickerAcceptType) :=
  option_map
    (fun fs =>
       map
         (fun f =>
            let exts :=
              filter (fun ext => lacks "-" ext && lacks "*" ext && lacks "_" ext)
                (extensions f) in
            let mime :=
              match host_getMediaOrTextMime h
                      ("fileName." ++ first_interpolated (extensions f)) with
              | Some m => m
              | None => "text/plain"
              end in
            {| description := filter_name f;
               accept :=
                 [(mime,
                   map (fun ext =>
                          if prefix "." ext then ext else ("." ++ ext)%string)
                     exts)] |})
         (filter
            (fun f =>
               negb (Nat.eqb (length (extensions f)) 1
                     && (strict_equal (nth_error (extensions f) 0) "*"
                         || strict_equal (nth_error (extensions f) 0) "")))
            fs))
    filters.

Definition this_getFilePickerTypes (filters : option (list FileFilter))
    : M (option (list FilePickerAcceptType)) :=
  ask (fun h => getFilePickerTypes h filters).

Definition pickFileToSave (defaultUri : URI)
    (availableFileSystems : option (list string)) : M (option URI) :=
  schema <- this_getFileSystemSchema
              {| query_defaultUri := Some defaultUri;
                 query_availableFileSystems := availableFileSystems |} ;;
  options <- this_getPickFileToSaveDialogOptions defaultUri availableFileSystems ;;
  if shouldUseSimplified schema then
    pickFileToSaveSimplified schema options
  else
    types <- this_getFilePickerTypes (save_filters options) ;;
    handle <- window_showSaveFilePicker {| save_types := types |} ;;
    uuid <- generateUuid ;;
    let uri := URI_from Schemas.file ("/" ++ uuid ++ "/" ++ file_name handle) in
    provider <- fileSystemProvider ;;
    registerFileHandle provider uuid handle ;;
    ret (Some uri).

Definition showSaveDialog (options : ISaveDialogOptions) : M (option URI) :=
  schema <- this_getFileSystemSchema (query_of_save options) ;;
  if shouldUseSimplified schema then
    showSaveDialogSimplified schema options
  else
    types <- this_getFilePickerTypes (save_filters options) ;;
    handle <- window_showSaveFilePicker {| save_types := types |} ;;
    uuid <- generateUuid ;;
    let uri := URI_from Schemas.file ("/" ++ uuid ++ "/" ++ file_name handle) in
    provider <- fileSystemProvider ;;
    registerFileHandle provider uuid handle ;;
    ret (Some uri).

(** Lines 141-153 of [showOpenDialog]: what [handleName] holds when the
    pickers are done. *)
Definition showOpenDialog_handleName (options : IOpenDialogOptions)
    (uuid : string) : M (option string) :=
  if truthy_bool (canSelectFiles options) then
    types <- this_getFilePickerTypes (open_filters options) ;;
    handle <- window_showOpenFilePicker
                {| multiple := false; open_types := types |} ;;
    match handle with
    | [handle0] =>
        provider <- fileSystemProvider ;;
        registerFileHandle provider uuid handle0 ;;
        ret (Some (file_name handle0))
    | _ => ret None
    end
  else
    handle <- window_showDirectoryPicker ;;
    provider <- fileSystemProvider ;;
    registerDirectoryHandle provider uuid handle ;;
    ret (Some (directory_name handle)).

Definition showOpenDialog (options : IOpenDialogOptions)
    : M (option (list URI)) :=
  schema <- this_getFileSystemSchema (query_of_open options) ;;
  if shouldUseSimplified schema then
    showOpenDialogSimplified schema options
  else
    uuid <- generateUuid ;;
    handleName <- showOpenDialog_handleName options uuid ;;
    if truthy_string handleName then
      match handleName with
      | Some name =>
          let uri := URI_from Schemas.file ("/" ++ uuid ++ "/" ++ name) in
          ret (Some [uri])
      | None => ret None
      end
    else ret None.

(** ** The public operations, uniformly *)

Inductive Operation : Type :=
| OpPickFileFolderAndOpen
| OpPickFileAndOpen
| OpPickFolderAndOpen
| OpPickWorkspaceAndOpen
| OpPickFileToSave
| OpShowSaveDialog
| OpShowOpenDialog.

(** A call: a public method of the class together with its arguments. *)
Inductive Call : Type :=
| PickFileFolderAndOpen (options : Ref)
| PickFileAndOpen (options : Ref)
| PickFolderAndOpen (options : Ref)
| PickWorkspaceAndOpen (options : Ref)
| PickFileToSave (defaultUri : URI) (availableFileSystems : option (list string))
| ShowSaveDialog (options : ISaveDialogOptions)
| ShowOpenDialog (options : IOpenDialogOptions).

Definition operation_of (c : Call) : Operation :=
  match c with
  | PickFileFolderAndOpen _ => OpPickFileFolderAndOpen
  | PickFileAndOpen _ => OpPickFileAndOpen
  | PickFolderAndOpen _ => OpPickFolderAndOpen
  | PickWorkspaceAndOpen _ => OpPickWorkspaceAndOpen
  | PickFileToSave _ _ => OpPickFileToSave
  | ShowSaveDialog _ => OpShowSaveDialog
  | ShowOpenDialog _ => OpShowOpenDialog
  end.

Definition value_of_uri (r : option URI) : JsValue :=
  match r with
  | Some u => VUri u
  | None => undefined
  end.

Definition value_of_uris (r : option (list URI)) : JsValue :=
  match r with
  | Some us => VUris us
  | None => undefined
  end.

Definition invoke (c : Call) : M JsValue :=
  match c with
  | PickFileFolderAndOpen options => pickFileFolderAndOpen options
  | PickFileAndOpen options => pickFileAndOpen options
  | PickFolderAndOpen options => pickFolderAndOpen options
  | PickWorkspaceAndOpen options => pickWorkspaceAndOpen options
  | PickFileToSave defaultUri availableFileSystems =>
      r <- pickFileToSave defaultUri availableFileSystems ;;
      ret (value_of_uri r)
  | ShowSaveDialog options =>
      r <- showSaveDialog options ;; ret (value_of_uri r)
  | ShowOpenDialog options =>
      r <- showOpenDialog options ;; ret (value_of_uris r)
  end.

(** Calls made one after the other on the same service instance; a call
    that throws does not stop the caller from making the next one. *)
Fixpoint session (cs : list Call) (h : Host) (w : World) : World :=
  match cs with
  | [] => w
  | c :: cs' => session cs' h (snd (invoke c h w))
  end.

(** The schema a call resolves its request to: what its first lines bind
    to [schema]. *)
Definition schema_of (h : Host) (w : World) (c : Call) : string :=
  match c with
  | PickFileFolderAndOpen options
  | PickFileAndOpen options
  | PickFolderAndOpen options =>
      host_getFileSystemSchema h (query_of_pick (heap w options))
  | PickWorkspaceAndOpen options =>
      host_getFileSystemSchema h
        {| query_defaultUri := pick_defaultUri (heap w options);
           query_availableFileSystems :=
             Some (host_getWorkspaceAvailableFileSystems h (heap w options)) |}
  | PickFileToSave defaultUri availableFileSystems =>
      host_getFileSystemSchema h
        {| query_defaultUri := Some defaultUri;
           query_availableFileSystems := availableFileSystems |}
  | ShowSaveDialog options => host_getFileSystemSchema h (query_of_save options)
  | ShowOpenDialog options => host_getFileSystemSchema h (query_of_open options)
  end.

(** ** Reading traces *)

Definition is_simplified (e : Event) : bool :=
  match e with
  | EvPickFileFolderAndOpenSimplified _ _ _
  | EvPickFileAndOpenSimplified _ _ _
  | EvPickFolderAndOpenSimplified _ _
  | EvPickWorkspaceAndOpenSimplified _ _
  | EvPickFileToSaveSimplified _ _
  | EvShowSaveDialogSimplified _ _
  | EvShowOpenDialogSimplified _ _ => true
  | _ => false
  end.

Definition is_picker (e : Event) : bool :=
  match e with
  | EvShowOpenFilePicker _ | EvShowSaveFilePicker _ | EvShowDirectoryPicker => true
  | _ => false
  end.

Definition is_registration (e : Event) : bool :=
  match e with
  | EvRegisterFileHandle _ _ _ | EvRegisterDirectoryHandle _ _ _ => true
  | _ => false
  end.

Definition is_lookup (e : Event) : bool :=
  match e with
  | EvGetProvider _ => true
  | _ => false
  end.

(** The identifiers under which the trace registers handles, oldest first. *)
Fixpoint registered_ids (t : list Event) : list string :=
  match t with
  | [] => []
  | EvRegisterFileHandle _ uuid _ :: t'
  | EvRegisterDirectoryHandle _ uuid _ :: t' => uuid :: registered_ids t'
  | _ :: t' => registered_ids t'
  end.

(** The events a call adds to the trace. *)
Definition emitted (c : Call) (h : Host) (w : World) : list Event :=
  skipn (length (trace w)) (trace (snd (invoke c h w))).

(** The provider a read of the accessor yields in [w], and the lookup it
    costs. *)
Definition provider_in (h : Host) (w : World) : Provider :=
  match memo_fileSystemProvider w with
  | Some p => p
  | None => host_getProvider h (lookups w) Schemas.file
  end.

Definition lookup_in (w : World) : list Event :=
  match memo_fileSystemProvider w with
  | Some _ => []
  | None => [EvGetProvider Schemas.file]
  end.

(** The option object a pick-and-open call receives. *)
Definition options_of (c : Call) : option Ref :=
  match c with
  | PickFileFolderAndOpen options
  | PickFileAndOpen options
  | PickFolderAndOpen options
  | PickWorkspaceAndOpen options => Some options
  | _ => None
  end.

(** The default path each pick-and-open operation asks for. *)
Definition default_path (h : Host) (op : Operation) (schema : string) : URI :=
  match op with
  | OpPickFolderAndOpen => host_defaultFolderPath h schema
  | OpPickWorkspaceAndOpen => host_defaultWorkspacePath h schema
  | _ => host_defaultFilePath h schema
  end.

(** What the native pickers of [showOpenDialog] leave in [handleName] when
    they are asked in [w]; nothing when the picker rejects. *)
Definition obtained_name (h : Host) (w : World) (options : IOpenDialogOptions)
    : option string :=
  if truthy_bool (canSelectFiles options) then
    match host_showOpenFilePicker h (dialogs w) with
    | Resolved [handle0] => Some (file_name handle0)
    | _ => None
    end
  else
    match host_showDirectoryPicker h (dialogs w) with
    | Resolved handle => Some (directory_name handle)
    | Rejected _ => None
    end.

(** The registration [showOpenDialog] makes on its native path. *)
Definition registration_in (h : Host) (w : World) (options : IOpenDialogOptions)
    (uuid : string) : list Event :=
  if truthy_bool (canSelectFiles options) then
    match host_showOpenFilePicker h (dialogs w) with
    | Resolved [handle0] =>
        lookup_in w ++ [EvRegisterFileHandle (provider_in h w) uuid handle0]
    | _ => []
    end
  else
    match host_showDirectoryPicker h (dialogs w) with
    | Resolved handle =>
        lookup_in w ++
        [EvRegisterDirectoryHandle (provider_in h w) uuid handle]
    | Rejected _ => []
    end.

(** [n] reads of the accessor in a row: the values read, and the world
    after the last read. *)
Fixpoint reads (n : nat) (h : Host) (w : World) : list Provider * World :=
  match n with
  | 0 => ([], w)
  | S n' =>
      match fileSystemProvider h w with
      | (Returned p, w') =>
          let (ps, w'') := reads n' h w' in (p :: ps, w'')
      | (Threw _, w') => ([], w')
      end
  end.

Definition lookup_count (t : list Event) : nat :=
  length (filter is_lookup t).

(** The providers the registrations of a trace address, oldest first. *)
Fixpoint providers_used (t : list Event) : list Provider :=
  match t with
  | [] => []
  | EvRegisterFileHandle p _ _ :: t'
  | EvRegisterDirectoryHandle p _ _ :: t' => p :: providers_used t'
  | _ :: t' => providers_used t'
  end.



(** A trace with the provider left out: lookups dropped, registrations
    kept without their target. *)
Definition anonymous (e : Event) : Event :=
  match e with
  | EvRegisterFileHandle _ uuid handle => EvRegisterFileHandle 0 uuid handle
  | EvRegisterDirectoryHandle _ uuid handle =>
      EvRegisterDirectoryHandle 0 uuid handle
  | _ => e
  end.

Definition besides_provider (t : list Event) : list Event :=
  map anonymous (filter (fun e => negb (is_lookup e)) t).

(** The operation whose simplified dialog an event is a call to. *)
Definition delegate_of (e : Event) : option Operation :=
  match e with
  | EvPickFileFolderAndOpenSimplified _ _ _ => Some OpPickFileFolderAndOpen
  | EvPickFileAndOpenSimplified _ _ _ => Some OpPickFileAndOpen
  | EvPickFolderAndOpenSimplified _ _ => Some OpPickFolderAndOpen
  | EvPickWorkspaceAndOpenSimplified _ _ => Some OpPickWorkspaceAndOpen
  | EvPickFileToSaveSimplified _ _ => Some OpPickFileToSave
  | EvShowSaveDialogSimplified _ _ => Some OpShowSaveDialog
  | EvShowOpenDialogSimplified _ _ => Some OpShowOpenDialog
  | _ => None
  end.

(** The schemes the native picker serves. *)
Definition native_schemes : list string := ["file"; "vscode-userdata"; "tmp"].

(** The error of the operations that have no native path. *)
Definition refusal (h : Host) (op : Operation) : JsError :=
  match op with
  | OpPickWorkspaceAndOpen =>
      Error (host_localize h "pickWorkspaceAndOpen"
               "Can't open workspaces, try adding a folder to the workspace instead.")
  | _ =>
      Error (host_localize h "pickFolderAndOpen"
               "Can't open folders, try adding a folder to the workspace instead.")
  end.

(** Every identifier registered so far was drawn from the generator, and
    none was registered twice. *)
Definition ids_drawn (h : Host) (w : World) : Prop :=
  NoDup (registered_ids (trace w)) /\
  forall id, In id (registered_ids (trace w)) ->
             exists n, n < uuids w /\ id = host_generateUuid h n.

(** What the trace and the memo cell of a service instance agree on: the
    lookups made were for the 'file' scheme; before the first lookup no
    handle was registered; after it there was no other lookup, and every
    registration addressed the provider stored. *)
Definition memo_consistent (w : World) : Prop :=
  (forall e, In e (trace w) -> is_lookup e = true -> e = EvGetProvider "file") /\
  match memo_fileSystemProvider w with
  | None => lookup_count (trace w) = 0 /\ providers_used (trace w) = []
  | Some p =>
      lookup_count (trace w) <= 1 /\
      forall q, In q (providers_used (trace w)) -> q = p
  end.


(** ** A concrete host and concrete requests *)

Module Sample.

Definition home : URI := URI_from "file" "/home".

Definition notes : FileSystemFileHandle :=
  {| file_name := "notes.txt"; file_token := 7 |}.

Definition project : FileSystemDirectoryHandle :=
  {| directory_name := "project"; directory_token := 8 |}.

Definition root : FileSystemDirectoryHandle :=
  {| directory_name := ""; directory_token := 9 |}.

(** Resolves a request to the first available file system, else to the
    scheme of the default URI, else to 'file'. *)
Definition schema_by_request (q : SchemaQuery) : string :=
  match query_availableFileSystems q, query_defaultUri q with
  | Some (s :: _), _ => s
  | _, Some u => scheme u
  | _, None => "file"
  end.

(** A generator that never repeats: "u", "u'", "u''", ... *)
Fixpoint primes (n : nat) : string :=
  match n with
  | 0 => EmptyString
  | S n' => String "'" (primes n')
  end.

Definition uuid_names (n : nat) : string := String "u" (primes n).

Definition host (directory : FileSystemDirectoryHandle) : Host :=
  {| host_getFileSystemSchema := schema_by_request;
     host_getWorkspaceAvailableFileSystems :=
       fun o => match pick_availableFileSystems o with
                | Some l => l
                | None => []
                end;
     host_defaultFilePath := fun s => URI_from s "/home/file";
     host_defaultFolderPath := fun s => URI_from s "/home/folder";
     host_defaultWorkspacePath := fun s => URI_from s "/home/workspace";
     host_getPickFileToSaveDialogOptions :=
       fun u afs =>
         {| save_defaultUri := Some u; save_availableFileSystems := afs;
            save_filters := None |};
     host_pickFileFolderAndOpenSimplified := fun _ => undefined;
     host_pickFileAndOpenSimplified := fun _ => undefined;
     host_pickFolderAndOpenSimplified := fun _ => undefined;
     host_pickFileToSaveSimplified := fun _ => None;
     host_showSaveDialogSimplified := fun _ => None;
     host_showOpenDialogSimplified := fun _ => None;
     host_showOpenFilePicker := fun _ => Resolved [notes];
     host_showSaveFilePicker := fun _ => Resolved notes;
     host_showDirectoryPicker := fun _ => Resolved directory;
     host_getProvider := fun n _ => n;
     host_generateUuid := uuid_names;
     host_localize := fun _ message => message;
     host_getMediaOrTextMime := fun _ => None |}.

Definition no_options : IPickAndOpenOptions :=
  {| pick_defaultUri := None; pick_availableFileSystems := None |}.

Definition at_home : IPickAndOpenOptions :=
  {| pick_defaultUri := Some home; pick_availableFileSystems := None |}.

Definition remote : IPickAndOpenOptions :=
  {| pick_defaultUri := None;
     pick_availableFileSystems := Some ["vscode-remote"] |}.

(** Reference 0 holds [no_options], 1 holds [at_home], the others
    [remote]. *)
Definition objects (r : Ref) : IPickAndOpenOptions :=
  match r with
  | 0 => no_options
  | 1 => at_home
  | _ => remote
  end.

Definition save_here : ISaveDialogOptions :=
  {| save_defaultUri := Some home; save_availableFileSystems := None;
     save_filters :=
       Some [ {| filter_name := "Text"; extensions := ["txt"; ".md"] |};
              {| filter_name := "All"; extensions := ["*"] |} ] |}.

Definition open_folder : IOpenDialogOptions :=
  {| open_defaultUri := Some home; open_availableFileSystems := None;
     open_filters := None; canSelectFiles := None |}.

Definition open_file : IOpenDialogOptions :=
  {| open_defaultUri := Some home; open_availableFileSystems := None;
     open_filters := None; canSelectFiles := Some true |}.

End Sample.

(** ** Further readings of requests and traces *)

(** A filter that accepts everything: its only extension is '*' or the
    empty string. *)
Definition catch_all (f : FileFilter) : bool :=
  match extensions f with
  | [e] => String.eqb e "*" || String.eqb e ""
  | _ => false
  end.

(** The option object of a pick-and-open call as it stands once the
    preamble of the method has run: the default URI filled in when it was
    absent and, for pickWorkspaceAndOpen, the available file systems
    replaced. *)
Definition prepared (h : Host) (w : World) (c : Call)
    (o : IPickAndOpenOptions) : IPickAndOpenOptions :=
  let o' :=
    match c with
    | PickWorkspaceAndOpen _ =>
        {| pick_defaultUri := pick_defaultUri o;
           pick_availableFileSystems :=
             Some (host_getWorkspaceAvailableFileSystems h o) |}
    | _ => o
    end in
  match pick_defaultUri o' with
  | Some _ => o'
  | None =>
      {| pick_defaultUri :=
           Some (default_path h (operation_of c) (schema_of h w c));
         pick_availableFileSystems := pick_availableFileSystems o' |}
  end.

(** The call a method makes to its simplified dialog in [w], and the value
    the method gets back from it. *)
Definition simplified_call (h : Host) (w : World) (c : Call)
    : Event * JsValue :=
  let schema := schema_of h w c in
  match c with
  | PickFileFolderAndOpen r =>
      (EvPickFileFolderAndOpenSimplified schema (prepared h w c (heap w r))
         false,
       host_pickFileFolderAndOpenSimplified h (dialogs w))
  | PickFileAndOpen r =>
      (EvPickFileAndOpenSimplified schema (prepared h w c (heap w r)) false,
       host_pickFileAndOpenSimplified h (dialogs w))
  | PickFolderAndOpen r =>
      (EvPickFolderAndOpenSimplified schema (prepared h w c (heap w r)),
       host_pickFolderAndOpenSimplified h (dialogs w))
  | PickWorkspaceAndOpen r =>
      (EvPickWorkspaceAndOpenSimplified schema (prepared h w c (heap w r)),
       undefined)
  | PickFileToSave defaultUri availableFileSystems =>
      (EvPickFileToSaveSimplified schema
         (host_getPickFileToSaveDialogOptions h defaultUri
            availableFileSystems),
       value_of_uri (host_pickFileToSaveSimplified h (dialogs w)))
  | ShowSaveDialog options =>
      (EvShowSaveDialogSimplified schema options,
       value_of_uri (host_showSaveDialogSimplified h (dialogs w)))
  | ShowOpenDialog options =>
      (EvShowOpenDialogSimplified schema options,
       value_of_uris (host_showOpenDialogSimplified h (dialogs w)))
  end.

(** The option object a simplified pick-and-open dialog was called with. *)
Definition pick_options_passed (e : Event) : option IPickAndOpenOptions :=
  match e with
  | EvPickFileFolderAndOpenSimplified _ o _
  | EvPickFileAndOpenSimplified _ o _
  | EvPickFolderAndOpenSimplified _ o
  | EvPickWorkspaceAndOpenSimplified _ o => Some o
  | _ => None
  end.

(** No simplified pick-and-open dialog is called without a default URI. *)
Definition carries_defaultUri (e : Event) : bool :=
  match pick_options_passed e with
  | Some o =>
      match pick_defaultUri o with
      | Some _ => true
      | None => false
      end
  | None => true
  end.

(** A dialog put before the user: a native picker or a simplified
    dialog. *)
Definition is_dialog (e : Event) : bool := is_picker e || is_simplified e.

(** Identifier and handle name of each registration, oldest first. *)
Fixpoint registrations (t : list Event) : list (string * string) :=
  match t with
  | [] => []
  | EvRegisterFileHandle _ uuid handle :: t' =>
      (uuid, file_name handle) :: registrations t'
  | EvRegisterDirectoryHandle _ uuid handle :: t' =>
      (uuid, directory_name handle) :: registrations t'
  | _ :: t' => registrations t'
  end.

(** The synthetic URI under which a registration is reached. *)
Definition synthetic_uri (registration : string * string) : URI :=
  URI_from Schemas.file
    ("/" ++ fst registration ++ "/" ++ snd registration).

(** The URIs passed to the opener service, oldest first. *)
Fixpoint opened (t : list Event) : list URI :=
  match t with
  | [] => []
  | EvOpen resource _ _ :: t' => resource :: opened t'
  | _ :: t' => opened t'
  end.

(** The URIs a completion hands back to the caller. *)
Definition returned_uris (r : Completion JsValue) : list URI :=
  match r with
  | Returned (VUri u) => [u]
  | Returned (VUris us) => us
  | _ => []
  end.

(** Filters and a request used to exercise the filter conversion. *)
Definition sample_filters : list FileFilter :=
  [ {| filter_name := "Sources"; extensions := ["ts"; ".js"; "d-ts"; "*_test"] |};
    {| filter_name := "Anything"; extensions := ["*"] |};
    {| filter_name := "Bare"; extensions := [] |} ].

(** The host [h] with a file picker that resolves with no handle. *)
Definition unanswered (h : Host) : Host :=
  {| host_getFileSystemSchema := host_getFileSystemSchema h;
     host_getWorkspaceAvailableFileSystems :=
       host_getWorkspaceAvailableFileSystems h;
     host_defaultFilePath := host_defaultFilePath h;
     host_defaultFolderPath := host_defaultFolderPath h;
     host_defaultWorkspacePath := host_defaultWorkspacePath h;
     host_getPickFileToSaveDialogOptions :=
       host_getPickFileToSaveDialogOptions h;
     host_pickFileFolderAndOpenSimplified :=
       host_pickFileFolderAndOpenSimplified h;
     host_pickFileAndOpenSimplified := host_pickFileAndOpenSimplified h;
     host_pickFolderAndOpenSimplified := host_pickFolderAndOpenSimplified h;
     host_pickFileToSaveSimplified := host_pickFileToSaveSimplified h;
     host_showSaveDialogSimplified := host_showSaveDialogSimplified h;
     host_showOpenDialogSimplified := host_showOpenDialogSimplified h;
     host_showOpenFilePicker := fun _ => Resolved [];
     host_showSaveFilePicker := host_showSaveFilePicker h;
     host_showDirectoryPicker := host_showDirectoryPicker h;
     host_getProvider := host_getProvider h;
     host_generateUuid := host_generateUuid h;
     host_localize := host_localize h;
     host_getMediaOrTextMime := host_getMediaOrTextMime h |}.

(** The error a picker rejects with when the user dismisses it. *)
Definition AbortError : JsError :=
  DOMException "AbortError" "The user aborted a request.".

(** The host [h] with a user who dismisses every native picker. *)
Definition dismissing (h : Host) : Host :=
  {| host_getFileSystemSchema := host_getFileSystemSchema h;
     host_getWorkspaceAvailableFileSystems :=
       host_getWorkspaceAvailableFileSystems h;
     host_defaultFilePath := host_defaultFilePath h;
     host_defaultFolderPath := host_defaultFolderPath h;
     host_defaultWorkspacePath := host_defaultWorkspacePath h;
     host_getPickFileToSaveDialogOptions :=
       host_getPickFileToSaveDialogOptions h;
     host_pickFileFolderAndOpenSimplified :=
       host_pickFileFolderAndOpenSimplified h;
     host_pickFileAndOpenSimplified := host_pickFileAndOpenSimplified h;
     host_pickFolderAndOpenSimplified := host_pickFolderAndOpenSimplified h;
     host_pickFileToSaveSimplified := host_pickFileToSaveSimplified h;
     host_showSaveDialogSimplified := host_showSaveDialogSimplified h;
     host_showOpenDialogSimplified := host_showOpenDialogSimplified h;
     host_showOpenFilePicker := fun _ => Rejected AbortError;
     host_showSaveFilePicker := fun _ => Rejected AbortError;
     host_showDirectoryPicker := fun _ => Rejected AbortError;
     host_getProvider := host_getProvider h;
     host_generateUuid := host_generateUuid h;
     host_localize := host_localize h;
     host_getMediaOrTextMime := host_getMediaOrTextMime h |}.

(** * Proofs *)

Unset Implicit Arguments.

Arguments shouldUseSimplified : simpl never.
Arguments getFilePickerTypes : simpl never.
Arguments update : simpl never.

(** ** Lists and traces *)

Lemma skipn_length_app (A : Type) (l l' : list A) :
  skipn (length l) (l ++ l') = l'.
Proof. induction l; simpl; auto. Qed.

Lemma skipn_length_nil (A : Type) (l : list A) :
  skipn (length l) l = [].
Proof. induction l; simpl; auto. Qed.

Lemma update_same hp r o : update hp r o r = o.
Proof. unfold update. now rewrite Nat.eqb_refl. Qed.

Lemma update_other hp r o r' : r' <> r -> update hp r o r' = hp r'.
Proof.
  intros N. unfold update. destruct (Nat.eqb r' r) eqn:E; auto.
  apply Nat.eqb_eq in E. contradiction.
Qed.

Lemma registered_ids_app t t' :
  registered_ids (t ++ t') = registered_ids t ++ registered_ids t'.
Proof.
  induction t as [|e t IH]; simpl; auto.
  destruct e; simpl; rewrite ?IH; reflexivity.
Qed.

Lemma providers_used_app t t' :
  providers_used (t ++ t') = providers_used t ++ providers_used t'.
Proof.
  induction t as [|e t IH]; simpl; auto.
  destruct e; simpl; rewrite ?IH; reflexivity.
Qed.

Lemma lookup_count_app t t' :
  lookup_count (t ++ t') = lookup_count t + lookup_count t'.
Proof. unfold lookup_count. now rewrite filter_app, length_app. Qed.

(** ** The scheme test *)

Lemma shouldUseSimplified_spec s :
  shouldUseSimplified s = true <-> ~ In s native_schemes.
Proof.
  unfold shouldUseSimplified. rewrite negb_true_iff.
  rewrite <- Bool.not_true_iff_false, existsb_exists.
  split.
  - intros N I. apply N. exists s. split; [exact I | apply String.eqb_refl].
  - intros N [x [I E]]. apply String.eqb_eq in E. subst x. exact (N I).
Qed.

Lemma native_not_simplified s :
  In s native_schemes -> shouldUseSimplified s = false.
Proof.
  intros I. destruct (shouldUseSimplified s) eqn:E; auto.
  apply shouldUseSimplified_spec in E. contradiction.
Qed.

(** ** Running a method along each of its paths *)

Ltac unfold_service :=
  unfold invoke, pickFileFolderAndOpen, pickFileAndOpen, pickFolderAndOpen,
    pickWorkspaceAndOpen, pickFileToSave, showSaveDialog, showOpenDialog,
    showOpenDialog_handleName,
    pickFileFolderAndOpenSimplified, pickFileAndOpenSimplified,
    pickFolderAndOpenSimplified, pickWorkspaceAndOpenSimplified,
    pickFileToSaveSimplified, showSaveDialogSimplified,
    showOpenDialogSimplified,
    fileSystemProvider, memoize, fileService_getProvider,
    window_showOpenFilePicker, window_showSaveFilePicker,
    window_showDirectoryPicker, registerFileHandle, registerDirectoryHandle,
    openerService_open, generateUuid, localize,
    this_getFilePickerTypes, this_getFileSystemSchema,
    this_getWorkspaceAvailableFileSystems, this_defaultFilePath,
    this_defaultFolderPath, this_defaultWorkspacePath,
    this_getPickFileToSaveDialogOptions,
    assign_defaultUri, assign_availableFileSystems, deref,
    answer, settle, emit, ask, bind, ret, throw,
    query_of_pick, query_of_save, query_of_open in *.

(** One branching point of the code at a time. *)
Ltac split_path :=
  match goal with
  | |- context [update _ ?r _ ?r] => rewrite update_same
  | |- context [match pick_defaultUri ?o with _ => _ end] =>
      destruct (pick_defaultUri o) eqn:?
  | |- context [if shouldUseSimplified ?s then _ else _] =>
      destruct (shouldUseSimplified s) eqn:?
  | |- context [if truthy_bool ?b then _ else _] =>
      destruct (truthy_bool b) eqn:?
  | |- context [match host_showOpenFilePicker ?h ?n with _ => _ end] =>
      destruct (host_showOpenFilePicker h n) as [[|? [|? ?]]|?] eqn:?
  | |- context [match host_showSaveFilePicker ?h ?n with _ => _ end] =>
      destruct (host_showSaveFilePicker h n) eqn:?
  | |- context [match host_showDirectoryPicker ?h ?n with _ => _ end] =>
      destruct (host_showDirectoryPicker h n) eqn:?
  | |- context [match memo_fileSystemProvider ?w with _ => _ end] =>
      destruct (memo_fileSystemProvider w) eqn:?
  | |- context [match file_name ?f with _ => _ end] =>
      destruct (file_name f) eqn:?
  | |- context [match directory_name ?f with _ => _ end] =>
      destruct (directory_name f) eqn:?
  end.

Ltac run := unfold_service; cbn; repeat (split_path; cbn).

(** Puts [trace w ++ e1 :: e2 :: ...] in that shape and reads off the
    events added. *)
Ltac flat :=
  repeat rewrite <- app_assoc; cbn [app];
  rewrite ?skipn_length_app, ?skipn_length_nil.

(** A call only appends to the trace; [emitted] is what it appends. *)
Lemma invoke_appends (c : Call) (h : Host) (w : World) :
  trace (snd (invoke c h w)) = trace w ++ emitted c h w.
Proof.
  unfold emitted.
  destruct c; run; flat; rewrite ?app_nil_r; reflexivity.
Qed.

(** What a call does when the schema is not native: it asks its own
    simplified dialog and nothing else. *)
Lemma simplified_path (c : Call) (h : Host) (w : World) :
  shouldUseSimplified (schema_of h w c) = true ->
  map delegate_of (emitted c h w) = [Some (operation_of c)].
Proof.
  intros S. unfold emitted.
  destruct c; cbn [schema_of] in S; run; flat; cbn in *; congruence.
Qed.

(** A call on a native schema never asks a simplified dialog. *)
Lemma native_path_no_delegate (c : Call) (h : Host) (w : World) :
  shouldUseSimplified (schema_of h w c) = false ->
  existsb is_simplified (emitted c h w) = false.
Proof.
  intros S. unfold emitted.
  destruct c; cbn [schema_of] in S; run; flat; cbn in *; congruence.
Qed.

(** ** Delegation *)

(** C2. Every operation, on every request, delegates to the simplified
    fallback if and only if the schema the request resolves to is none of
    'file', 'vscode-userdata' and 'tmp'. *)
Theorem delegates_iff_schema_not_native (c : Call) (h : Host) (w : World) :
  existsb is_simplified (emitted c h w) = true <->
  ~ In (schema_of h w c) ["file"; "vscode-userdata"; "tmp"].
Proof.
  change ["file"; "vscode-userdata"; "tmp"] with native_schemes.
  rewrite <- shouldUseSimplified_spec.
  destruct (shouldUseSimplified (schema_of h w c)) eqn:S.
  - split; auto. intros _.
    pose proof (simplified_path c h w S) as D.
    destruct (emitted c h w) as [|e t]; [discriminate|].
    simpl in D. injection D as D _. simpl.
    destruct e; simpl in D; try discriminate; reflexivity.
  - rewrite (native_path_no_delegate c h w S). split; discriminate.
Qed.

(** ** Folder and workspace picks *)

Lemma no_native_path (c : Call) (h : Host) (w : World) :
  In (operation_of c)
     [OpPickFileFolderAndOpen; OpPickFolderAndOpen; OpPickWorkspaceAndOpen] ->
  shouldUseSimplified (schema_of h w c) = false ->
  fst (invoke c h w) = Threw (refusal h (operation_of c)) /\
  emitted c h w = [].
Proof.
  intros O N. unfold emitted.
  destruct c; simpl in O; cbn [schema_of] in N;
    try (exfalso; intuition discriminate);
    run; flat; cbn in *; try congruence; auto.
Qed.

(** C4. On a request whose schema is 'file', 'vscode-userdata' or 'tmp',
    pickFileFolderAndOpen, pickFolderAndOpen and pickWorkspaceAndOpen throw
    an error; no picker is invoked and no handle is registered (no
    collaborator is called at all). *)
Theorem folder_and_workspace_picks_throw (c : Call) (h : Host) (w : World) :
  In (operation_of c)
     [OpPickFileFolderAndOpen; OpPickFolderAndOpen; OpPickWorkspaceAndOpen] ->
  In (schema_of h w c) ["file"; "vscode-userdata"; "tmp"] ->
  fst (invoke c h w) = Threw (refusal h (operation_of c)) /\
  existsb is_picker (emitted c h w) = false /\
  existsb is_registration (emitted c h w) = false /\
  emitted c h w = [].
Proof.
  intros O N. apply native_not_simplified in N.
  destruct (no_native_path c h w O N) as [R E].
  rewrite E. auto.
Qed.

Lemma folder_and_workspace_picks_throw_witness :
  schema_of (Sample.host Sample.project) (fresh Sample.objects)
    (PickFolderAndOpen 0) = "file"
  /\ fst (invoke (PickFolderAndOpen 0) (Sample.host Sample.project)
            (fresh Sample.objects))
     = Threw (Error
         "Can't open folders, try adding a folder to the workspace instead.")
  /\ emitted (PickFolderAndOpen 0) (Sample.host Sample.project)
       (fresh Sample.objects) = [].
Proof.
  split; [reflexivity|].
  destruct (folder_and_workspace_picks_throw (PickFolderAndOpen 0)
              (Sample.host Sample.project) (fresh Sample.objects))
    as [R [_ [_ E]]].
  - simpl. auto.
  - simpl. auto.
  - split; [exact R | exact E].
Defined.

(** ** The default URI *)

(** C8. pickFileFolderAndOpen, pickFileAndOpen, pickFolderAndOpen and
    pickWorkspaceAndOpen leave [options.defaultUri] as it is when it is set
    on entry; when it is absent they assign the default file, folder or
    workspace path of the schema to it. *)
Theorem defaultUri_assigned_only_when_absent (c : Call) (options : Ref)
    (h : Host) (w : World) :
  options_of c = Some options ->
  (forall u, pick_defaultUri (heap w options) = Some u ->
             pick_defaultUri (heap (snd (invoke c h w)) options) = Some u) /\
  (pick_defaultUri (heap w options) = None ->
   pick_defaultUri (heap (snd (invoke c h w)) options)
   = Some (default_path h (operation_of c) (schema_of h w c))).
Proof.
  intros O.
  destruct c; simpl in O; try discriminate; injection O as ->;
    cbn [schema_of operation_of default_path]; split; intros;
    run; cbn in *; rewrite ?update_same; cbn; congruence.
Qed.

Lemma defaultUri_assigned_only_when_absent_witness :
  pick_defaultUri (heap (fresh Sample.objects) 1) = Some Sample.home
  /\ pick_defaultUri
       (heap (snd (invoke (PickFileAndOpen 1) (Sample.host Sample.project)
                     (fresh Sample.objects))) 1)
     = Some Sample.home.
Proof.
  split; [reflexivity|].
  apply (defaultUri_assigned_only_when_absent (PickFileAndOpen 1) 1
           (Sample.host Sample.project) (fresh Sample.objects) eq_refl).
  reflexivity.
Defined.

(** ** Identifiers *)

(** A call registers nothing, or one handle under the identifier it has
    just drawn from the generator. *)
Lemma invoke_registers (c : Call) (h : Host) (w : World) :
  (registered_ids (emitted c h w) = [] /\
   uuids w <= uuids (snd (invoke c h w))) \/
  (registered_ids (emitted c h w) = [host_generateUuid h (uuids w)] /\
   uuids (snd (invoke c h w)) = S (uuids w)).
Proof.
  unfold emitted.
  destruct c; run; flat; cbn; auto.
Qed.

Lemma fresh_ids_drawn h hp : ids_drawn h (fresh hp).
Proof.
  split; simpl; [constructor | intros id []].
Qed.

Section Unique.

Variable h : Host.

(** The UUID generator never repeats a value. *)
Hypothesis never_repeats :
  forall m n, host_generateUuid h m = host_generateUuid h n -> m = n.

Lemma invoke_ids_drawn c w :
  ids_drawn h w -> ids_drawn h (snd (invoke c h w)).
Proof.
  intros [ND DR]. unfold ids_drawn.
  rewrite invoke_appends, registered_ids_app.
  destruct (invoke_registers c h w) as [[E U] | [E U]]; rewrite E.
  - rewrite app_nil_r. split; auto.
    intros id I. destruct (DR id I) as [n [L ->]].
    exists n. split; [lia | auto].
  - split.
    + apply NoDup_app; auto.
      * constructor; [simpl; tauto | constructor].
      * intros id I [J | []]. destruct (DR id I) as [n [L ->]].
        apply never_repeats in J. lia.
    + intros id I. apply in_app_iff in I. destruct I as [I | [<- | []]].
      * destruct (DR id I) as [n [L ->]]. exists n. split; [lia | auto].
      * exists (uuids w). split; [lia | auto].
Qed.

Lemma session_ids_drawn cs w :
  ids_drawn h w -> ids_drawn h (session cs h w).
Proof.
  revert w. induction cs as [|c cs IH]; intros w D; simpl; auto.
  apply IH, invoke_ids_drawn, D.
Qed.

(** C3. Given that the UUID generator never repeats a value, after any
    sequence of operations on a service instance the identifiers under
    which file and directory handles were registered are pairwise
    distinct. *)
Theorem registered_identifiers_unique (hp : Ref -> IPickAndOpenOptions)
    (cs : list Call) :
  NoDup (registered_ids (trace (session cs h (fresh hp)))).
Proof.
  apply (session_ids_drawn cs (fresh hp) (fresh_ids_drawn h hp)).
Qed.

End Unique.

Lemma primes_injective m n : Sample.primes m = Sample.primes n -> m = n.
Proof.
  revert n. induction m as [|m IH]; intros [|n] E; simpl in E;
    try discriminate; auto.
  injection E as E. f_equal. auto.
Qed.

Lemma uuid_names_injective (directory : FileSystemDirectoryHandle) m n :
  host_generateUuid (Sample.host directory) m
  = host_generateUuid (Sample.host directory) n -> m = n.
Proof.
  simpl. unfold Sample.uuid_names. intros E. injection E as E.
  apply primes_injective, E.
Qed.

Lemma registered_identifiers_unique_witness :
  registered_ids
    (trace (session [ShowSaveDialog Sample.save_here;
                     ShowOpenDialog Sample.open_folder;
                     PickFileAndOpen 1]
              (Sample.host Sample.project) (fresh Sample.objects)))
  = ["u"; "u'"; "u''"]
  /\ NoDup
       (registered_ids
          (trace (session [ShowSaveDialog Sample.save_here;
                           ShowOpenDialog Sample.open_folder;
                           PickFileAndOpen 1]
                    (Sample.host Sample.project) (fresh Sample.objects)))).
Proof.
  split; [reflexivity|].
  apply (registered_identifiers_unique (Sample.host Sample.project)
           (uuid_names_injective Sample.project)).
Defined.

(** ** The memoized accessor *)

Lemma fileSystemProvider_run h w :
  fileSystemProvider h w
  = (Returned (provider_in h w),
     match memo_fileSystemProvider w with
     | Some _ => w
     | None =>
         set_memo (Some (host_getProvider h (lookups w) Schemas.file))
           (next_lookup (log (EvGetProvider Schemas.file) w))
     end).
Proof.
  unfold provider_in. run; reflexivity.
Qed.

Lemma reads_S n h w :
  reads (S n) h w
  = let w' := snd (fileSystemProvider h w) in
    (provider_in h w :: fst (reads n h w'), snd (reads n h w')).
Proof.
  cbn [reads]. rewrite fileSystemProvider_run. cbn [snd].
  destruct (reads n h _). reflexivity.
Qed.

(** Any number of reads yields the same provider; only the first one can
    change the world. *)
Lemma reads_run n h w :
  reads n h w
  = (repeat (provider_in h w) n,
     match n with
     | 0 => w
     | S _ => snd (fileSystemProvider h w)
     end).
Proof.
  revert w. induction n as [|n IH]; intros w; [reflexivity|].
  rewrite reads_S. cbv zeta. rewrite IH. cbn [fst snd repeat].
  destruct n; rewrite !fileSystemProvider_run; unfold provider_in;
    destruct (memo_fileSystemProvider w) eqn:E; cbn; rewrite ?E; reflexivity.
Qed.

(** How a call uses the accessor: not at all, or it reuses the provider
    stored, or it looks the provider up and stores it. *)
Lemma invoke_provider (c : Call) (h : Host) (w : World) :
  (memo_fileSystemProvider (snd (invoke c h w)) = memo_fileSystemProvider w /\
   filter is_lookup (emitted c h w) = [] /\
   providers_used (emitted c h w) = []) \/
  (exists p, memo_fileSystemProvider w = Some p /\
     memo_fileSystemProvider (snd (invoke c h w)) = Some p /\
     filter is_lookup (emitted c h w) = [] /\
     providers_used (emitted c h w) = [p]) \/
  (memo_fileSystemProvider w = None /\
   memo_fileSystemProvider (snd (invoke c h w)) = Some (provider_in h w) /\
   filter is_lookup (emitted c h w) = [EvGetProvider "file"] /\
   providers_used (emitted c h w) = [provider_in h w]).
Proof.
  unfold emitted, provider_in.
  destruct c; run; flat; cbn; eauto 10.
Qed.

Lemma fresh_memo_consistent hp : memo_consistent (fresh hp).
Proof.
  split; simpl; [intros e [] | auto].
Qed.

Lemma invoke_memo_consistent c h w :
  memo_consistent w -> memo_consistent (snd (invoke c h w)).
Proof.
  intros [F M]. unfold memo_consistent.
  rewrite invoke_appends, lookup_count_app, providers_used_app.
  assert (lookup_count (emitted c h w)
          = length (filter is_lookup (emitted c h w))) as LC by reflexivity.
  assert (forall e, In e (trace w ++ emitted c h w) -> is_lookup e = true ->
                    In e (trace w) \/ In e (filter is_lookup (emitted c h w)))
    as IL.
  { intros e I T. apply in_app_iff in I. destruct I as [I | I]; auto.
    right. apply filter_In. auto. }
  destruct (invoke_provider c h w)
    as [[E [L P]] | [[p [E0 [E [L P]]]] | [E0 [E [L P]]]]];
    rewrite L in LC, IL; simpl in LC; rewrite E, LC, P; clear E;
    (split; [intros e I T; destruct (IL e I T) as [J | J]; auto;
             simpl in J; intuition congruence |]).
  - rewrite app_nil_r, Nat.add_0_r. exact M.
  - rewrite E0 in M. destruct M as [M1 M2]. split; [lia|].
    intros q I. apply in_app_iff in I. destruct I as [I | [<- | []]]; auto.
  - rewrite E0 in M. destruct M as [M1 M2]. rewrite M1, M2. simpl.
    split; [lia|]. intros q [<- | []]. reflexivity.
Qed.

Lemma session_memo_consistent cs h w :
  memo_consistent w -> memo_consistent (session cs h w).
Proof.
  revert w. induction cs as [|c cs IH]; intros w D; simpl; auto.
  apply IH, invoke_memo_consistent, D.
Qed.

Lemma read_memo_consistent h w :
  memo_consistent w ->
  memo_consistent (snd (fileSystemProvider h w)) /\
  forall q, In q (providers_used (trace (snd (fileSystemProvider h w)))) ->
            q = provider_in h w.
Proof.
  intros [F M]. rewrite fileSystemProvider_run. unfold provider_in. cbn [snd].
  destruct (memo_fileSystemProvider w) as [p|] eqn:E.
  - split; [split; [exact F | rewrite E; exact M] | apply M].
  - destruct M as [M1 M2]. unfold memo_consistent.
    cbn [trace log next_lookup set_memo memo_fileSystemProvider].
    rewrite lookup_count_app, providers_used_app, M1, M2. cbn.
    split; [split; [| split; [lia | intros q []]] | intros q []].
    intros e I T. apply in_app_iff in I. destruct I as [I | [<- | []]]; auto.
Qed.

(** C5. The fileSystemProvider accessor is memoized.  On a service
    instance, after any sequence of operations, any number of reads of the
    accessor all yield the same provider object, the one every registration
    of the instance addressed; and since the instance was created
    fileService.getProvider was called at most once, for the 'file'
    scheme. *)
Theorem fileSystemProvider_memoized (h : Host)
    (hp : Ref -> IPickAndOpenOptions) (cs : list Call) (n : nat) :
  let w := session cs h (fresh hp) in
  let ps := fst (reads n h w) in
  let w' := snd (reads n h w) in
  ps = repeat (provider_in h w) n /\
  lookup_count (trace w') <= 1 /\
  (forall e, In e (trace w') -> is_lookup e = true -> e = EvGetProvider "file") /\
  (forall q, In q (providers_used (trace w')) -> q = provider_in h w).
Proof.
  cbv zeta. rewrite reads_run. cbn [fst snd].
  pose proof (session_memo_consistent cs h (fresh hp)
                (fresh_memo_consistent hp)) as C.
  set (w := session cs h (fresh hp)) in *.
  split; [reflexivity|].
  assert (forall q, In q (providers_used (trace w)) -> q = provider_in h w)
    as Q.
  { destruct C as [_ M]. unfold provider_in.
    destruct (memo_fileSystemProvider w); [apply M|].
    destruct M as [_ M]. rewrite M. intros q []. }
  destruct n as [|n].
  - destruct C as [F M]. split; [|split; auto].
    destruct (memo_fileSystemProvider w); lia.
  - destruct (read_memo_consistent h w C) as [[F M] R].
    split; [|split; auto].
    destruct (memo_fileSystemProvider (snd (fileSystemProvider h w))); lia.
Qed.

(** ** Caching *)


(** Apart from the provider, a call does the same whatever is stored on
    the instance. *)
Lemma invoke_besides_provider (c : Call) (h : Host) (w : World)
    (m : option Provider) :
  fst (invoke c h w) = fst (invoke c h (set_memo m w)) /\
  besides_provider (emitted c h w)
  = besides_provider (emitted c h (set_memo m w)) /\
  heap (snd (invoke c h w)) = heap (snd (invoke c h (set_memo m w))) /\
  uuids (snd (invoke c h w)) = uuids (snd (invoke c h (set_memo m w))) /\
  dialogs (snd (invoke c h w)) = dialogs (snd (invoke c h (set_memo m w))).
Proof.
  unfold emitted.
  destruct m; destruct c; run; flat; cbn; auto.
Qed.






(** ** The native path *)




Lemma showOpenDialog_native options h w :
  shouldUseSimplified (schema_of h w (ShowOpenDialog options)) = false ->
  let uuid := host_generateUuid h (uuids w) in
  let handleName := obtained_name h w options in
  let picker :=
    if truthy_bool (canSelectFiles options) then
      EvShowOpenFilePicker
        {| multiple := false;
           open_types := getFilePickerTypes h (open_filters options) |}
    else EvShowDirectoryPicker in
  fst (showOpenDialog options h w)
  = match
      (if truthy_bool (canSelectFiles options) then
         match host_showOpenFilePicker h (dialogs w) with
         | Resolved _ => None
         | Rejected e => Some e
         end
       else
         match host_showDirectoryPicker h (dialogs w) with
         | Resolved _ => None
         | Rejected e => Some e
         end)
    with
    | Some e => Threw e
    | None =>
        Returned
          (if truthy_string handleName then
             option_map
               (fun name => [URI_from "file" ("/" ++ uuid ++ "/" ++ name)])
               handleName
           else None)
    end /\
  emitted (ShowOpenDialog options) h w
  = picker :: registration_in h w options uuid /\
  uuids (snd (invoke (ShowOpenDialog options) h w)) = S (uuids w).
Proof.
  intros S. cbn [schema_of] in S.
  unfold emitted, obtained_name, registration_in, lookup_in, provider_in.
  run; flat; cbn in *; try congruence; auto.
Qed.


(** ** showOpenDialog *)

(** C7, as stated, fails.  The user dismisses the file picker: the picker
    rejects, the method catches nothing, and the call neither returns
    undefined nor an array but rejects with the picker's error. *)
Lemma dismissed_picker_rejects :
  let h := dismissing (Sample.host Sample.project) in
  let w := fresh Sample.objects in
  schema_of h w (ShowOpenDialog Sample.open_file) = "file" /\
  host_showOpenFilePicker h (dialogs w) = Rejected AbortError /\
  fst (showOpenDialog Sample.open_file h w) = Threw AbortError /\
  emitted (ShowOpenDialog Sample.open_file) h w
  = [EvShowOpenFilePicker {| multiple := false; open_types := None |}].
Proof.
  cbv zeta. repeat split; reflexivity.
Qed.

(** The behaviour the amended C7 leaves out.  The directory picker hands
    back a handle whose name is the empty string: the handle is registered,
    but the truthiness test on [handleName] takes the empty name for an
    absent one and the call returns undefined; showSaveDialog hands out a
    URI for a handle of that name. *)
Lemma empty_name_returns_undefined :
  let h := Sample.host Sample.root in
  let w := fresh Sample.objects in
  schema_of h w (ShowOpenDialog Sample.open_folder) = "file" /\
  fst (showOpenDialog_handleName Sample.open_folder "u" h (next_uuid w))
  = Returned (Some "") /\
  emitted (ShowOpenDialog Sample.open_folder) h w
  = [EvShowDirectoryPicker; EvGetProvider "file";
     EvRegisterDirectoryHandle 0 "u" Sample.root] /\
  fst (showOpenDialog Sample.open_folder h w) = Returned None.
Proof.
  cbv zeta. repeat split; reflexivity.
Qed.

(** C7, amended.  On the native path, when options.canSelectFiles is true
    showOpenDialog asks the file picker, otherwise the directory picker.
    When the picker rejects, the call rejects with the picker's error and
    registers nothing.  When the picker resolves, the call returns
    undefined or a one-element array holding the URI of scheme 'file' and
    path '/<uuid>/<name>'; it registers a file handle exactly when the file
    picker resolved with one handle, and the directory handle the directory
    picker resolved with; it returns undefined when no handle name was
    obtained, and the array when the name obtained is not empty. *)
Theorem showOpenDialog_native_path (options : IOpenDialogOptions) (h : Host)
    (w : World) :
  In (host_getFileSystemSchema h (query_of_open options))
     ["file"; "vscode-userdata"; "tmp"] ->
  let uuid := host_generateUuid h (uuids w) in
  let uri := fun name => URI_from "file" ("/" ++ uuid ++ "/" ++ name) in
  let returned := fst (showOpenDialog options h w) in
  let calls := emitted (ShowOpenDialog options) h w in
  if truthy_bool (canSelectFiles options) then
    let picker :=
      EvShowOpenFilePicker
        {| multiple := false;
           open_types := getFilePickerTypes h (open_filters options) |} in
    match host_showOpenFilePicker h (dialogs w) with
    | Rejected e => returned = Threw e /\ calls = [picker]
    | Resolved [handle0] =>
        (returned = Returned None \/
         returned = Returned (Some [uri (file_name handle0)])) /\
        (file_name handle0 <> "" ->
         returned = Returned (Some [uri (file_name handle0)])) /\
        calls
        = picker
          :: lookup_in w ++
             [EvRegisterFileHandle (provider_in h w) uuid handle0]
    | Resolved _ => returned = Returned None /\ calls = [picker]
    end
  else
    match host_showDirectoryPicker h (dialogs w) with
    | Rejected e => returned = Threw e /\ calls = [EvShowDirectoryPicker]
    | Resolved handle =>
        (returned = Returned None \/
         returned = Returned (Some [uri (directory_name handle)])) /\
        (directory_name handle <> "" ->
         returned = Returned (Some [uri (directory_name handle)])) /\
        calls
        = EvShowDirectoryPicker
          :: lookup_in w ++
             [EvRegisterDirectoryHandle (provider_in h w) uuid handle]
    end.
Proof.
  intros N. apply native_not_simplified in N.
  destruct (showOpenDialog_native options h w N) as [R [E _]].
  cbv zeta in *. rewrite R, E. clear R E.
  unfold obtained_name, registration_in.
  destruct (truthy_bool (canSelectFiles options)).
  - destruct (host_showOpenFilePicker h (dialogs w)) as [[|f [|f' l]]|e];
      auto.
    destruct (file_name f) as [|a s]; cbn; repeat split; auto.
    intros F. contradiction F. reflexivity.
  - destruct (host_showDirectoryPicker h (dialogs w)) as [d|e]; auto.
    destruct (directory_name d) as [|a s]; cbn; repeat split; auto.
    intros F. contradiction F. reflexivity.
Qed.

Lemma showOpenDialog_native_path_witness :
  host_getFileSystemSchema (Sample.host Sample.project)
    (query_of_open Sample.open_file) = "file"
  /\ host_showOpenFilePicker (Sample.host Sample.project) 0
     = Resolved [Sample.notes]
  /\ fst (showOpenDialog Sample.open_file (Sample.host Sample.project)
            (fresh Sample.objects))
     = Returned (Some [URI_from "file" "/u/notes.txt"])
  /\ emitted (ShowOpenDialog Sample.open_file) (Sample.host Sample.project)
       (fresh Sample.objects)
     = [EvShowOpenFilePicker {| multiple := false; open_types := None |};
        EvGetProvider "file";
        EvRegisterFileHandle 0 "u" Sample.notes].
Proof.
  split; [reflexivity|]. split; [reflexivity|].
  assert (In (host_getFileSystemSchema (Sample.host Sample.project)
                (query_of_open Sample.open_file))
             ["file"; "vscode-userdata"; "tmp"]) as N by (simpl; auto).
  pose proof (showOpenDialog_native_path Sample.open_file
                (Sample.host Sample.project) (fresh Sample.objects) N) as T.
  cbv zeta in T. simpl truthy_bool in T. cbv iota in T.
  simpl host_showOpenFilePicker in T. cbv iota in T.
  destruct T as [_ [S E]].
  split; [apply S; discriminate | exact E].
Defined.

(** ** Picking natively *)




(** * Further properties of the code *)

(** ** The filter conversion *)

Lemma catch_all_test (f : FileFilter) :
  Nat.eqb (length (extensions f)) 1
  && (strict_equal (nth_error (extensions f) 0) "*"
      || strict_equal (nth_error (extensions f) 0) "")
  = catch_all f.
Proof.
  unfold catch_all. destruct (extensions f) as [|e [|e' l]]; reflexivity.
Qed.

Lemma lacks_dotted c s :
  c <> "."%char -> lacks c s = true -> lacks c ("." ++ s) = true.
Proof.
  intros N L.
  change (lacks c ("." ++ s))
    with (if Ascii.eqb "." c then false else lacks c s).
  destruct (Ascii.eqb "." c) eqn:E; auto.
  apply Ascii.eqb_eq in E. congruence.
Qed.

Lemma prefix_dotted s : prefix "." ("." ++ s) = true.
Proof. cbn. destruct s; reflexivity. Qed.

(** X1. getFilePickerTypes gives undefined for undefined filters;
    otherwise it gives, in the order of the filters, one picker type per
    filter that is not a catch-all (a filter whose only extension is '*' or
    the empty string), described by the name of that filter. *)
Theorem getFilePickerTypes_descriptions (h : Host)
    (filters : option (list FileFilter)) :
  option_map (map description) (getFilePickerTypes h filters)
  = option_map
      (fun fs => map filter_name (filter (fun f => negb (catch_all f)) fs))
      filters.
Proof.
  unfold getFilePickerTypes. destruct filters as [fs|]; [|reflexivity].
  cbn [option_map]. f_equal. rewrite map_map. cbn [description].
  f_equal. apply filter_ext. intros f. now rewrite catch_all_test.
Qed.

(** X2. Every extension getFilePickerTypes offers to the picker starts
    with a dot and contains none of '-', '*' and '_'; it is an extension of
    the filter the type describes, as written there or with a dot put in
    front. *)
Theorem getFilePickerTypes_offers (h : Host)
    (filters : option (list FileFilter)) (types : list FilePickerAcceptType)
    (t : FilePickerAcceptType) (mime : string) (exts : list string)
    (e : string) :
  getFilePickerTypes h filters = Some types ->
  In t types -> In (mime, exts) (accept t) -> In e exts ->
  (prefix "." e = true /\
   lacks "-" e = true /\ lacks "*" e = true /\ lacks "_" e = true) /\
  exists fs f x,
    filters = Some fs /\ In f fs /\ filter_name f = description t /\
    In x (extensions f) /\ (e = x \/ e = ("." ++ x)%string).
Proof.
  unfold getFilePickerTypes. destruct filters as [fs|]; [|discriminate].
  cbn [option_map]. intros T It Ia Ie. injection T as <-.
  apply in_map_iff in It. destruct It as [f [<- If]].
  apply filter_In in If. destruct If as [If _].
  cbn [accept] in Ia. destruct Ia as [Ia | []]. injection Ia as _ <-.
  apply in_map_iff in Ie. destruct Ie as [x [<- Ix]].
  apply filter_In in Ix. destruct Ix as [Ix L].
  apply andb_true_iff in L. destruct L as [L L3].
  apply andb_true_iff in L. destruct L as [L1 L2].
  split.
  - destruct (prefix "." x) eqn:P; [auto|].
    split; [apply prefix_dotted|].
    repeat split; apply lacks_dotted; auto; discriminate.
  - exists fs, f, x. cbn [description]. repeat split; auto.
    destruct (prefix "." x); auto.
Qed.

Lemma getFilePickerTypes_offers_witness :
  getFilePickerTypes (Sample.host Sample.project) (Some sample_filters)
  = Some [ {| description := "Sources";
              accept := [("text/plain", [".ts"; ".js"])] |};
           {| description := "Bare"; accept := [("text/plain", [])] |} ]
  /\ prefix "." ".ts" = true
  /\ lacks "-" ".ts" = true /\ lacks "*" ".ts" = true
  /\ lacks "_" ".ts" = true.
Proof.
  split; [reflexivity|].
  apply (getFilePickerTypes_offers (Sample.host Sample.project)
           (Some sample_filters) _
           {| description := "Sources";
              accept := [("text/plain", [".ts"; ".js"])] |}
           "text/plain" [".ts"; ".js"] ".ts" eq_refl);
    simpl; auto.
Defined.

(** X3. A filter without any extension is not dropped: it yields a picker
    type that offers no extension, under the MIME type the host knows for
    the name 'fileName.undefined' ('text/plain' when it knows none). *)
Theorem getFilePickerTypes_without_extensions (h : Host)
    (fs : list FileFilter) (f : FileFilter) :
  In f fs -> extensions f = [] ->
  exists types,
    getFilePickerTypes h (Some fs) = Some types /\
    In {| description := filter_name f;
          accept :=
            [(match host_getMediaOrTextMime h "fileName.undefined" with
              | Some m => m
              | None => "text/plain"
              end, [])] |} types.
Proof.
  intros If E. unfold getFilePickerTypes. cbn [option_map].
  eexists. split; [reflexivity|].
  apply in_map_iff. exists f. rewrite E. split; [reflexivity|].
  apply filter_In. split; [exact If|]. rewrite E. reflexivity.
Qed.

Lemma getFilePickerTypes_without_extensions_witness :
  exists types,
    getFilePickerTypes (Sample.host Sample.project) (Some sample_filters)
    = Some types /\
    In {| description := "Bare"; accept := [("text/plain", [])] |} types.
Proof.
  apply (getFilePickerTypes_without_extensions (Sample.host Sample.project)
           sample_filters {| filter_name := "Bare"; extensions := [] |}).
  - simpl. auto.
  - reflexivity.
Defined.

(** ** The simplified path *)

(** X4. When the schema of the request is not one the native picker
    serves, an operation makes exactly one call to a collaborator: its own
    simplified dialog, with the schema and with the options as its preamble
    left them (for pickFileToSave, the dialog options built from the default
    URI).  It returns what that dialog returns; it draws no identifier,
    looks up no provider and leaves the memo cell alone. *)
Theorem simplified_path_only_delegates (c : Call) (h : Host) (w : World) :
  shouldUseSimplified (schema_of h w c) = true ->
  fst (invoke c h w) = Returned (snd (simplified_call h w c)) /\
  emitted c h w = [fst (simplified_call h w c)] /\
  uuids (snd (invoke c h w)) = uuids w /\
  lookups (snd (invoke c h w)) = lookups w /\
  memo_fileSystemProvider (snd (invoke c h w)) = memo_fileSystemProvider w /\
  dialogs (snd (invoke c h w)) = S (dialogs w).
Proof.
  intros S. unfold emitted, simplified_call, prepared.
  destruct c; cbn [schema_of operation_of default_path] in *;
    run; flat; cbn in *; rewrite ?update_same; cbn;
    try congruence; repeat split; try congruence.
  all: repeat match goal with H : _ = _ |- _ => rewrite H end; auto.
Qed.

Lemma simplified_path_only_delegates_witness :
  shouldUseSimplified
    (schema_of (Sample.host Sample.project) (fresh Sample.objects)
       (PickFileAndOpen 2)) = true
  /\ fst (invoke (PickFileAndOpen 2) (Sample.host Sample.project)
            (fresh Sample.objects)) = Returned undefined
  /\ emitted (PickFileAndOpen 2) (Sample.host Sample.project)
       (fresh Sample.objects)
     = [EvPickFileAndOpenSimplified "vscode-remote"
          {| pick_defaultUri := Some (URI_from "vscode-remote" "/home/file");
             pick_availableFileSystems := Some ["vscode-remote"] |}
          false].
Proof.
  split; [reflexivity|].
  destruct (simplified_path_only_delegates (PickFileAndOpen 2)
              (Sample.host Sample.project) (fresh Sample.objects) eq_refl)
    as [R [E _]].
  split; [exact R | exact E].
Defined.

Lemma invoke_carries_defaultUri (c : Call) (h : Host) (w : World) :
  forallb carries_defaultUri (emitted c h w) = true.
Proof.
  unfold emitted. destruct c; run; flat; cbn; rewrite ?update_same; cbn;
    repeat match goal with H : _ = Some _ |- _ => rewrite H end; reflexivity.
Qed.

(** X5. Whatever the callers passed, no simplified pick-and-open dialog is
    ever called with an absent default URI: in the trace of any sequence of
    operations, every such call carries options whose defaultUri is set. *)
Theorem simplified_dialogs_get_a_defaultUri (h : Host)
    (hp : Ref -> IPickAndOpenOptions) (cs : list Call) :
  forallb carries_defaultUri (trace (session cs h (fresh hp))) = true.
Proof.
  assert (forall w, forallb carries_defaultUri (trace w) = true ->
                    forallb carries_defaultUri (trace (session cs h w)) = true)
    as G.
  { induction cs as [|c cs IH]; intros w T; simpl; auto.
    apply IH. rewrite invoke_appends, forallb_app, T.
    apply invoke_carries_defaultUri. }
  apply G. reflexivity.
Qed.

(** ** The option objects *)

(** X6. An operation writes to no option object but the one it was
    passed: every other object is after the call what it was before, and
    the save and open dialogs write to none. *)
Theorem other_options_untouched (c : Call) (h : Host) (w : World) (r : Ref) :
  options_of c <> Some r ->
  heap (snd (invoke c h w)) r = heap w r.
Proof.
  intros N.
  destruct c; cbn [options_of] in N; run; cbn;
    rewrite ?update_other; auto; congruence.
Qed.

Lemma other_options_untouched_witness :
  options_of (PickFileAndOpen 0) <> Some 1
  /\ heap (snd (invoke (PickFileAndOpen 0) (Sample.host Sample.project)
                  (fresh Sample.objects))) 1
     = Sample.at_home.
Proof.
  assert (options_of (PickFileAndOpen 0) <> Some 1) as N
    by (simpl; discriminate).
  split; [exact N|].
  apply (other_options_untouched (PickFileAndOpen 0)
           (Sample.host Sample.project) (fresh Sample.objects) 1 N).
Defined.

(** X7. pickWorkspaceAndOpen replaces options.availableFileSystems by
    what getWorkspaceAvailableFileSystems answers for the options it
    received, also when it throws afterwards; the other three pick
    operations leave options.availableFileSystems as it is. *)
Theorem availableFileSystems_after (c : Call) (h : Host) (w : World)
    (r : Ref) :
  options_of c = Some r ->
  pick_availableFileSystems (heap (snd (invoke c h w)) r)
  = match c with
    | PickWorkspaceAndOpen _ =>
        Some (host_getWorkspaceAvailableFileSystems h (heap w r))
    | _ => pick_availableFileSystems (heap w r)
    end.
Proof.
  intros O.
  destruct c; simpl in O; try discriminate; injection O as ->;
    run; cbn in *; rewrite ?update_same; cbn; congruence.
Qed.

Lemma availableFileSystems_after_witness :
  fst (invoke (PickWorkspaceAndOpen 1) (Sample.host Sample.project)
         (fresh Sample.objects))
  = Threw (Error
      "Can't open workspaces, try adding a folder to the workspace instead.")
  /\ pick_availableFileSystems (heap (fresh Sample.objects) 1) = None
  /\ pick_availableFileSystems
       (heap (snd (invoke (PickWorkspaceAndOpen 1)
                     (Sample.host Sample.project) (fresh Sample.objects))) 1)
     = Some [].
Proof.
  split; [reflexivity|]. split; [reflexivity|].
  apply (availableFileSystems_after (PickWorkspaceAndOpen 1)
           (Sample.host Sample.project) (fresh Sample.objects) 1 eq_refl).
Defined.

(** ** Edges of the native path *)

(** X8. On the native path, when the file picker resolves with no handle
    at all, pickFileAndOpen fails with a TypeError: after the picker it has
    drawn an identifier, but it registers nothing, opens nothing and stores
    nothing. *)
Theorem pickFileAndOpen_without_handle (options : Ref) (h : Host)
    (w : World) :
  shouldUseSimplified (schema_of h w (PickFileAndOpen options)) = false ->
  host_showOpenFilePicker h (dialogs w) = Resolved [] ->
  (exists message,
     fst (invoke (PickFileAndOpen options) h w) = Threw (TypeError message)) /\
  emitted (PickFileAndOpen options) h w
  = [EvShowOpenFilePicker {| multiple := false; open_types := None |}] /\
  uuids (snd (invoke (PickFileAndOpen options) h w)) = S (uuids w) /\
  memo_fileSystemProvider (snd (invoke (PickFileAndOpen options) h w))
  = memo_fileSystemProvider w.
Proof.
  intros S. cbn [schema_of] in S. unfold emitted.
  run; flat; cbn in *; try congruence; intros P; try discriminate; eauto.
Qed.

Lemma pickFileAndOpen_without_handle_witness :
  host_showOpenFilePicker (unanswered (Sample.host Sample.project)) 0
  = Resolved []
  /\ emitted (PickFileAndOpen 1) (unanswered (Sample.host Sample.project))
       (fresh Sample.objects)
     = [EvShowOpenFilePicker {| multiple := false; open_types := None |}]
  /\ uuids (snd (invoke (PickFileAndOpen 1)
                   (unanswered (Sample.host Sample.project))
                   (fresh Sample.objects))) = 1.
Proof.
  split; [reflexivity|].
  destruct (pickFileAndOpen_without_handle 1
              (unanswered (Sample.host Sample.project))
              (fresh Sample.objects) eq_refl eq_refl) as [_ [E [U _]]].
  split; [exact E | exact U].
Defined.

(** X9. On the native path every URI an operation hands out, whether it
    returns it or passes it to the opener service, is the synthetic URI of
    a handle the same call has registered: scheme 'file', path
    '/<identifier>/<name>' with the identifier and the handle name of that
    registration. *)
Theorem handed_out_uris_are_registered (c : Call) (h : Host) (w : World)
    (u : URI) :
  shouldUseSimplified (schema_of h w c) = false ->
  In u (returned_uris (fst (invoke c h w)) ++ opened (emitted c h w)) ->
  In u (map synthetic_uri (registrations (emitted c h w))).
Proof.
  intros S. unfold emitted.
  destruct c; cbn [schema_of] in S; run; flat; cbn in *;
    try congruence; try tauto;
    unfold synthetic_uri; cbn;
    repeat match goal with H : _ = String _ _ |- _ => rewrite H end; tauto.
Qed.

Lemma handed_out_uris_are_registered_witness :
  returned_uris (fst (invoke (ShowOpenDialog Sample.open_folder)
                        (Sample.host Sample.project) (fresh Sample.objects)))
  = [URI_from "file" "/u/project"]
  /\ In (URI_from "file" "/u/project")
       (map synthetic_uri
          (registrations
             (emitted (ShowOpenDialog Sample.open_folder)
                (Sample.host Sample.project) (fresh Sample.objects)))).
Proof.
  split; [reflexivity|].
  apply (handed_out_uris_are_registered (ShowOpenDialog Sample.open_folder)
           (Sample.host Sample.project) (fresh Sample.objects)
           (URI_from "file" "/u/project") eq_refl).
  simpl. auto.
Defined.

(** X10. An operation puts at most one dialog before the user, a native
    picker or a simplified dialog.  Every provider lookup, handle
    registration and call to the opener service it makes comes after that
    dialog, and an operation that shows no dialog makes none of them. *)
Theorem one_dialog_first (c : Call) (h : Host) (w : World) :
  match emitted c h w with
  | [] => dialogs (snd (invoke c h w)) = dialogs w
  | e :: rest =>
      is_dialog e = true /\ existsb is_dialog rest = false /\
      dialogs (snd (invoke c h w)) = S (dialogs w)
  end.
Proof.
  unfold emitted. destruct c; run; flat; cbn; auto.
Qed.

(** X11. On the native path pickFileToSave is showSaveDialog applied to
    the dialog options built from its arguments: when both requests resolve
    to a native schema, the two calls return the same value and leave the
    same state. *)
Theorem pickFileToSave_is_showSaveDialog (defaultUri : URI)
    (availableFileSystems : option (list string)) (h : Host) (w : World) :
  shouldUseSimplified
    (schema_of h w (PickFileToSave defaultUri availableFileSystems)) = false ->
  shouldUseSimplified
    (schema_of h w
       (ShowSaveDialog
          (host_getPickFileToSaveDialogOptions h defaultUri
             availableFileSystems))) = false ->
  invoke (PickFileToSave defaultUri availableFileSystems) h w
  = invoke
      (ShowSaveDialog
         (host_getPickFileToSaveDialogOptions h defaultUri
            availableFileSystems)) h w.
Proof.
  intros S1 S2. cbn [schema_of] in *.
  run; cbn in *; try congruence; reflexivity.
Qed.

Lemma pickFileToSave_is_showSaveDialog_witness :
  fst (invoke (PickFileToSave Sample.home None)
         (Sample.host Sample.project) (fresh Sample.objects))
  = Returned (VUri (URI_from "file" "/u/notes.txt"))
  /\ invoke (PickFileToSave Sample.home None)
       (Sample.host Sample.project) (fresh Sample.objects)
     = invoke
         (ShowSaveDialog
            {| save_defaultUri := Some Sample.home;
               save_availableFileSystems := None;
               save_filters := None |})
         (Sample.host Sample.project) (fresh Sample.objects).
Proof.
  split; [reflexivity|].
  apply (pickFileToSave_is_showSaveDialog Sample.home None
           (Sample.host Sample.project) (fresh Sample.objects)
           eq_refl eq_refl).
Defined.

(** ** Synthetic URIs across calls *)

Lemma registered_ids_registrations t :
  registered_ids t = map fst (registrations t).
Proof.
  induction t as [|e t IH]; simpl; auto.
  destruct e; simpl; rewrite ?IH; reflexivity.
Qed.

(** Up to its first '/', a path segment is determined by the path. *)
Lemma segment_injective (u1 u2 n1 n2 : string) :
  lacks "/" u1 = true -> lacks "/" u2 = true ->
  (u1 ++ "/" ++ n1)%string = (u2 ++ "/" ++ n2)%string ->
  u1 = u2 /\ n1 = n2.
Proof.
  revert u2. induction u1 as [|a u1 IH]; intros [|b u2] L1 L2 E; cbn in E.
  - injection E as E. auto.
  - injection E as E0 E. subst b. cbn in L2. discriminate.
  - injection E as E0 E. subst a. cbn in L1. discriminate.
  - injection E as E0 E. subst b.
    change (lacks "/" (String a u1))
      with (if Ascii.eqb a "/" then false else lacks "/" u1) in L1.
    change (lacks "/" (String a u2))
      with (if Ascii.eqb a "/" then false else lacks "/" u2) in L2.
    destruct (Ascii.eqb a "/"); [discriminate|].
    destruct (IH u2 L1 L2 E) as [-> ->]. auto.
Qed.

Lemma synthetic_uri_injective (a b : string * string) :
  lacks "/" (fst a) = true -> lacks "/" (fst b) = true ->
  synthetic_uri a = synthetic_uri b -> a = b.
Proof.
  intros La Lb E. unfold synthetic_uri in E. injection E as E.
  destruct a as [u1 n1], b as [u2 n2]. cbn [fst snd] in *.
  destruct (segment_injective u1 u2 n1 n2 La Lb E) as [-> ->]. reflexivity.
Qed.

Lemma synthetic_uris_distinct (l : list (string * string)) :
  NoDup (map fst l) ->
  (forall x, In x l -> lacks "/" (fst x) = true) ->
  NoDup (map synthetic_uri l).
Proof.
  induction l as [|a l IH]; intros ND L; simpl; [constructor|].
  inversion ND as [|? ? NI ND']. subst. constructor.
  - intros I. apply in_map_iff in I. destruct I as [b [E Ib]].
    apply synthetic_uri_injective in E; [| apply L; simpl; auto ..].
    subst b. apply NI, in_map, Ib.
  - apply IH; auto. intros x Ix. apply L. simpl. auto.
Qed.

(** X12. Given that the UUID generator never repeats a value and that its
    values contain no '/', the synthetic URIs of the handles registered in
    any sequence of operations are pairwise distinct, even when handles
    share a name or a name contains '/'. *)
Theorem synthetic_uris_unique (h : Host) (hp : Ref -> IPickAndOpenOptions)
    (cs : list Call) :
  (forall m n, host_generateUuid h m = host_generateUuid h n -> m = n) ->
  (forall n, lacks "/" (host_generateUuid h n) = true) ->
  NoDup (map synthetic_uri
           (registrations (trace (session cs h (fresh hp))))).
Proof.
  intros I L.
  destruct (session_ids_drawn h I cs (fresh hp) (fresh_ids_drawn h hp))
    as [ND DR].
  rewrite registered_ids_registrations in ND, DR.
  apply synthetic_uris_distinct; [exact ND|].
  intros x Ix. destruct (DR (fst x) (in_map fst _ x Ix)) as [n [_ ->]].
  apply L.
Qed.

Lemma primes_lack_slash n : lacks "/" (Sample.primes n) = true.
Proof. induction n as [|n IH]; simpl; auto. Qed.

Lemma synthetic_uris_unique_witness :
  map synthetic_uri
    (registrations
       (trace (session [ShowSaveDialog Sample.save_here;
                        PickFileAndOpen 1;
                        ShowOpenDialog Sample.open_file]
                 (Sample.host Sample.project) (fresh Sample.objects))))
  = [URI_from "file" "/u/notes.txt"; URI_from "file" "/u'/notes.txt";
     URI_from "file" "/u''/notes.txt"]
  /\ NoDup
       (map synthetic_uri
          (registrations
             (trace (session [ShowSaveDialog Sample.save_here;
                              PickFileAndOpen 1;
                              ShowOpenDialog Sample.open_file]
                       (Sample.host Sample.project)
                       (fresh Sample.objects))))).
Proof.
  split; [reflexivity|].
  apply (synthetic_uris_unique (Sample.host Sample.project)).
  - apply (uuid_names_injective Sample.project).
  - intros n. apply (primes_lack_slash n).
Defined.
